(** * everhome-py: the everHome API client (src/everhome/everhome_client.py)

    A shallow embedding of class [EverHome]: the client object, the request
    it hands to its [requests] session, and the translation of the session's
    outcome into a result or an exception.  The Python runtime pieces the
    client calls but does not define (repr of containers, [json.dumps], the
    HTTP transport behind [Session.request]) are section variables. *)

From Stdlib Require Import ZArith QArith String Ascii List.
From stdpp Require Import gmap strings pretty.

Set Warnings "-register-all".

Local Open Scope Z_scope.

(** ** Python values *)

Module Py.

(** The values that flow through the client: JSON documents, tokens,
    keyword arguments, and opaque objects (exception instances and the
    like, kept by their printed form). A float is kept as the rational its
    decimal literal denotes. *)
Inductive pyval : Type :=
| PyNone
| PyBool (b : bool)
| PyInt (n : Z)
| PyFloat (q : Q)
| PyStr (s : string)
| PyList (l : list pyval)
| PyTuple (l : list pyval)
| PyDict (d : list (string * pyval))
| PyObj (printed : string).

(** Truth value testing, as used by [if payload:] and [x or y]. *)
Definition truthy (v : pyval) : bool :=
  match v with
  | PyNone => false
  | PyBool b => b
  | PyInt n => negb (n =? 0)
  | PyFloat q => negb (Qeq_bool q 0)
  | PyStr s => negb (String.eqb s "")
  | PyList l | PyTuple l => match l with [] => false | _ => true end
  | PyDict d => match d with [] => false | _ => true end
  | PyObj _ => true
  end.

(** Key lookup in a dict held as an association list. *)
Fixpoint assoc_lookup (d : list (string * pyval)) (key : string) : option pyval :=
  match d with
  | [] => None
  | (k, v) :: rest => if String.eqb k key then Some v else assoc_lookup rest key
  end.

(** [d.get(key, default)] *)
Definition assoc_get (d : list (string * pyval)) (key : string) (default : pyval) : pyval :=
  match assoc_lookup d key with
  | Some v => v
  | None => default
  end.

(** [v == x] for an integer [x]: numbers compare by value, and True and
    False count as 1 and 0. *)
Definition eq_int (v : pyval) (x : Z) : bool :=
  match v with
  | PyInt n => n =? x
  | PyBool b => (if b then 1 else 0) =? x
  | PyFloat q => Qeq_bool q (inject_Z x)
  | _ => false
  end.

(** [x in container] for an integer [x] and a list or tuple. *)
Definition int_in (x : Z) (container : pyval) : bool :=
  match container with
  | PyList l | PyTuple l => existsb (fun v => eq_int v x) l
  | _ => false
  end.

Definition upper_char (c : ascii) : ascii :=
  let n := N_of_ascii c in
  if ((97 <=? n) && (n <=? 122))%N then ascii_of_N (n - 32) else c.

(** [s.upper()] on ASCII text. *)
Fixpoint upper (s : string) : string :=
  match s with
  | EmptyString => EmptyString
  | String c rest => String (upper_char c) (upper rest)
  end.

End Py.
Export Py.

(** ** urllib3 and requests objects the client builds or receives *)

(** The keyword arguments of [urllib3.Retry(...)] that [_build_session]
    passes, each holding the value it is given. *)
Record Retry : Type := {
  total : pyval;
  connect : pyval;
  read : pyval;
  allowed_methods : gset string;
  status : pyval;
  backoff_factor : pyval;
  status_forcelist : pyval
}.

Record HTTPAdapter : Type := { max_retries : Retry }.

(** A [requests.Session]: the adapters mounted by URL prefix. *)
Record Session : Type := { adapters : gmap string HTTPAdapter }.

Definition mount (s : Session) (pfx : string) (adapter : HTTPAdapter) : Session :=
  {| adapters := <[pfx := adapter]> (adapters s) |}.

(** The arguments of one [Session.request(method, url, headers=, proxies=,
    timeout=, **args)] call; [data] is absent when [args] has no such key. *)
Record Request : Type := {
  method : string;
  url : string;
  headers : gmap string pyval;
  proxies : pyval;
  timeout : pyval;
  params : gmap string pyval;
  data : option pyval
}.

(** A [requests.Response] as far as the client reads it. [json_body] is what
    [response.json()] decodes, [None] when decoding raises [ValueError]. *)
Record Response : Type := {
  status_code : Z;
  response_url : string;
  text : string;
  json_body : option pyval;
  response_headers : list (string * string)
}.

(** A [requests.exceptions.RetryError] as the adapter raises it: it carries
    the prepared request (read through [request.path_url]) and its [args];
    an argument is kept as its [reason] attribute, [None] when it has none. *)
Record RetryFailure : Type := {
  path_url : string;
  args : list (option pyval)
}.

(** Modelled from the spec: the Error type [EverHomeException] of
    everhome/exceptions.py, which is not among the sources. It carries
    http_status, error_code, message, an optional reason and optional
    headers; [reason] and [headers] are keyword arguments, absent (None)
    when not passed. *)
Record Error : Type := {
  http_status : Z;
  error_code : Z;
  message : string;
  reason : pyval;
  error_headers : option (list (string * string))
}.

(** Exceptions, by the classes the client's [except] clauses tell apart.
    [ValueError] stands for the class and its subclasses (JSONDecodeError,
    InvalidURL, MissingSchema, ...); [OtherError] for any class that is none
    of the others (ConnectionError, Timeout, ...). *)
Inductive exn : Type :=
| EverHomeException (e : Error)
| HTTPError (response : Response)
| RetryError (failure : RetryFailure)
| ValueError
| AttributeError
| IndexError
| TypeError
| OtherError (cls : string).

(** ** The client object *)

Record EverHome : Type := {
  prefix : string;
  _auth : pyval;
  _session : Session;
  requests_timeout : pyval
}.

(** The interpreter state a call runs in: the client object and the calls
    made on its session so far, oldest first. *)
Record State : Type := {
  self : EverHome;
  issued : list (Session * Request)
}.

(** ** State and exception monad *)

Definition M (A : Type) : Type := State -> (exn + A) * State.

Definition ret {A} (a : A) : M A := fun st => (inr a, st).

Definition raise {A} (e : exn) : M A := fun st => (inl e, st).

Definition bind {A B} (c : M A) (k : A -> M B) : M B :=
  fun st =>
    match c st with
    | (inl e, st') => (inl e, st')
    | (inr a, st') => k a st'
    end.

(** [try: c except ...: handler]: the handler sees the exception and either
    recovers, raises another one, or re-raises. *)
Definition try_except {A} (c : M A) (handler : exn -> M A) : M A :=
  fun st =>
    match c st with
    | (inl e, st') => handler e st'
    | (inr a, st') => (inr a, st')
    end.

Definition lift {A} (r : exn + A) : M A := fun st => (r, st).

Definition get_self : M EverHome := fun st => (inr (self st), st).

Definition set_self (c : EverHome) : M unit :=
  fun st => (inr tt, {| self := c; issued := issued st |}).

Declare Scope py_scope.
Delimit Scope py_scope with py.
Notation "x <- c ;; k" := (bind c (fun x => k))
  (at level 100, c at next level, right associativity) : py_scope.
Notation "c ;;; k" := (bind c (fun _ => k))
  (at level 100, right associativity) : py_scope.

(** ** URL schemes *)

Definition is_alpha (c : ascii) : bool :=
  let n := N_of_ascii c in
  (((65 <=? n) && (n <=? 90)) || ((97 <=? n) && (n <=? 122)))%N.

Definition is_digit (c : ascii) : bool :=
  let n := N_of_ascii c in ((48 <=? n) && (n <=? 57))%N.

Definition is_scheme_char (c : ascii) : bool :=
  is_alpha c || is_digit c || Ascii.eqb c "+" || Ascii.eqb c "-" || Ascii.eqb c ".".

Fixpoint scheme_tail (s : string) : bool :=
  match s with
  | EmptyString => false
  | String c rest =>
      if Ascii.eqb c ":" then true
      else if is_scheme_char c then scheme_tail rest else false
  end.

(** A URL that starts with a scheme in the sense of RFC 3986: a letter,
    then letters, digits, [+], [-] or [.], then a colon. This is the
    notion of an absolute URL that the specification speaks of; the client
    itself tests something else (see [_internal_call]). *)
Definition starts_with_scheme (u : string) : bool :=
  match u with
  | EmptyString => false
  | String c rest => is_alpha c && scheme_tail rest
  end.

(** ** The retry policy as urllib3 reads it *)

Module urllib3.

(** Behaviour of the urllib3 library (util/retry.py), which decides from the
    policy object whether a response is retried. [Retry] keeps
    [respect_retry_after_header] at its default, True. *)
Definition RETRY_AFTER_STATUS_CODES : list Z := [413; 429; 503].

(** [Retry._is_method_retryable]: a non-empty [allowed_methods] excludes
    every method outside it. *)
Definition _is_method_retryable (r : Retry) (method : string) : bool :=
  if negb (bool_decide (allowed_methods r = ∅))
     && negb (bool_decide (upper method ∈ allowed_methods r))
  then false else true.

(** [Retry.is_retry(method, status_code, has_retry_after)]: a status is
    retried when it is in [status_forcelist], or when the response carries a
    Retry-After header and the status is one of 413, 429, 503. *)
Definition is_retry (r : Retry) (method : string) (status_code : Z)
    (has_retry_after : bool) : bool :=
  if negb (_is_method_retryable r method) then false
  else if truthy (status_forcelist r) && int_in status_code (status_forcelist r) then true
  else truthy (total r) && has_retry_after
       && existsb (Z.eqb status_code) RETRY_AFTER_STATUS_CODES.

End urllib3.

(** ** A sample runtime and sample answers

    Concrete stand-ins for the interpreter and the network, used to run the
    client on explicit inputs. *)

Module Sample.

Definition repr (v : pyval) : string := "<repr>".

Definition quoted (s : string) : string :=
  String "034"%char (s +:+ String "034"%char EmptyString).

(** Agrees with [json.dumps] on None, booleans, integers, empty containers
    and strings that need no escaping; raises [TypeError] on everything
    else, as [json.dumps] does on an object it cannot serialize. *)
Definition dumps (v : pyval) : exn + string :=
  match v with
  | PyNone => inr "null"
  | PyBool true => inr "true"
  | PyBool false => inr "false"
  | PyInt n => inr (pretty n)
  | PyStr s => inr (quoted s)
  | PyList [] | PyTuple [] => inr "[]"
  | PyDict [] => inr "{}"
  | _ => inl TypeError
  end.

(** A session that gives the same answer to every request. *)
Definition answers (answer : exn + Response)
    : Session -> list (Session * Request) -> Request -> exn + Response :=
  fun _ _ _ => answer.

(** 404 with body {"error": {"message": "not found", "reason": "no_such_user"}} *)
Definition not_found : Response :=
  {| status_code := 404;
     response_url := "https://everhome.cloud/user/current";
     text := "{" +:+ quoted "error" +:+ ": {" +:+ quoted "message" +:+ ": "
             +:+ quoted "not found" +:+ ", " +:+ quoted "reason" +:+ ": "
             +:+ quoted "no_such_user" +:+ "}}";
     json_body := Some (PyDict [("error", PyDict [("message", PyStr "not found");
                                                  ("reason", PyStr "no_such_user")])]);
     response_headers := [("Content-Type", "application/json")] |}.

(** 500 with the text body [internal error] *)
Definition internal_error : Response :=
  {| status_code := 500;
     response_url := "https://everhome.cloud/devices";
     text := "internal error";
     json_body := None;
     response_headers := [("Content-Type", "text/plain")] |}.

(** 500 with an empty body *)
Definition empty_error : Response :=
  {| status_code := 500;
     response_url := "https://everhome.cloud/devices";
     text := "";
     json_body := None;
     response_headers := [] |}.

(** 200 with an HTML body *)
Definition ok_not_json : Response :=
  {| status_code := 200;
     response_url := "https://everhome.cloud/devices";
     text := "<html></html>";
     json_body := None;
     response_headers := [("Content-Type", "text/html")] |}.

(** 500 with the JSON body [] *)
Definition error_list : Response :=
  {| status_code := 500;
     response_url := "https://everhome.cloud/devices";
     text := "[]";
     json_body := Some (PyList []);
     response_headers := [("Content-Type", "application/json")] |}.

(** 500 with the JSON body {} *)
Definition error_empty_object : Response :=
  {| status_code := 500;
     response_url := "https://everhome.cloud/devices";
     text := "{}";
     json_body := Some (PyDict []);
     response_headers := [("Content-Type", "application/json")] |}.

(** 200 with a JSON list of two device ids *)
Definition ok_devices : Response :=
  {| status_code := 200;
     response_url := "https://everhome.cloud/devices";
     text := "[7, 9]";
     json_body := Some (PyList [PyInt 7; PyInt 9]);
     response_headers := [("Content-Type", "application/json")] |}.

(** The retry failure the adapter raises after too many 500 responses. *)
Definition too_many_500 : RetryFailure :=
  {| path_url := "/devices";
     args := [Some (PyObj "too many 500 error responses")] |}.

(** The typed error the client makes of [empty_error]. *)
Definition raised_on_empty_error : exn :=
  EverHomeException
    {| http_status := 500;
       error_code := -1;
       message := "https://everhome.cloud/devices:" +:+ String "010"%char " None";
       reason := PyNone;
       error_headers := Some [] |}.

End Sample.

(** ** The client's methods *)

Section Client.

(** [repr()] of floats and containers, left to the interpreter. *)
Variable py_repr : pyval -> string.

(** [json.dumps]: the serialized text, or the exception it raises on an
    object it cannot serialize. *)
Variable json_dumps : pyval -> exn + string.

(** What the session does with a request, given the calls made before it:
    it returns a response or raises. *)
Variable send : Session -> list (Session * Request) -> Request -> exn + Response.

(** [str(v)], which both ["{0}".format(v)] and ["%s" % v] produce. *)
Definition py_str (v : pyval) : string :=
  match v with
  | PyNone => "None"
  | PyBool true => "True"
  | PyBool false => "False"
  | PyInt n => pretty n
  | PyStr s => s
  | PyObj printed => printed
  | _ => py_repr v
  end.

(** ["%s:\n %s" % (context, what)] *)
Definition format_message (context : string) (what : pyval) : string :=
  context +:+ ":" +:+ String "010"%char (" " +:+ py_str what).

(** [session.request(method, url, headers=.., proxies=.., timeout=..,
    params=.., [data=..])]: the call is recorded and the transport answers. *)
Definition Session_request (session : Session) (method url : string)
    (headers : gmap string pyval) (proxies timeout : pyval)
    (params : gmap string pyval) (data : option pyval) : M Response :=
  fun st =>
    let req := {| method := method; url := url; headers := headers;
                  proxies := proxies; timeout := timeout;
                  params := params; data := data |} in
    (send session (issued st) req,
     {| self := self st; issued := issued st ++ [(session, req)] |}).

(** [response.raise_for_status()]: statuses 400 to 599 raise [HTTPError]. *)
Definition raise_for_status (response : Response) : M unit :=
  if (400 <=? status_code response) && (status_code response <? 600)
  then raise (HTTPError response) else ret tt.

(** [response.json()] *)
Definition Response_json (response : Response) : M pyval :=
  match json_body response with
  | Some v => ret v
  | None => raise ValueError
  end.

(** [obj.get(key, default)]: only a dict has the method. *)
Definition py_get (obj : pyval) (key : string) (default : pyval) : M pyval :=
  match obj with
  | PyDict d => ret (assoc_get d key default)
  | _ => raise AttributeError
  end.

(** [requests.Session()]; its two default adapters sit under the prefixes
    that [_build_session] mounts over. *)
Definition requests_Session : Session := {| adapters := ∅ |}.

Definition _build_session : Session :=
  let session := requests_Session in
  let retry :=
    {| total := PyInt 3;
       connect := PyNone;
       read := PyBool false;
       allowed_methods := {[ "GET"; "POST"; "PUT"; "DELETE" ]};
       status := PyTuple [PyInt 429; PyInt 500; PyInt 502; PyInt 503; PyInt 504];
       backoff_factor := PyFloat 0.3;
       status_forcelist := PyNone |} in
  let adapter := {| max_retries := retry |} in
  mount (mount session "http://" adapter) "https://" adapter.

(** [EverHome(auth=None, requests_timeout=5)] *)
Definition __init__ (auth : pyval) (requests_timeout : pyval) : EverHome :=
  {| prefix := "https://everhome.cloud/";
     _auth := auth;
     _session := _build_session;
     requests_timeout := requests_timeout |}.

Definition default_auth : pyval := PyNone.
Definition default_requests_timeout : pyval := PyInt 5.

Definition set_auth (auth : pyval) : M pyval :=
  (self <- get_self ;;
   set_self {| prefix := prefix self; _auth := auth;
               _session := _session self;
               requests_timeout := requests_timeout self |} ;;;
   ret PyNone)%py.

Definition _auth_headers (self : EverHome) : gmap string pyval :=
  {[ "Authorization" := PyStr ("Bearer " +:+ py_str (_auth self)) ]}.

(** The [except requests.exceptions.HTTPError] clause: read message and
    reason off the error body, fall back to the text when the body is not
    JSON, and raise the typed error. *)
Definition on_http_error (response : Response) : M pyval :=
  (details <-
     try_except
       (json_response <- Response_json response ;;
        error <- py_get json_response "error" (PyDict []) ;;
        msg <- py_get error "message" PyNone ;;
        reason <- py_get error "reason" PyNone ;;
        ret (msg, reason))
       (fun e =>
          match e with
          | ValueError =>
              ret (if truthy (PyStr (text response))
                   then PyStr (text response) else PyNone,
                   PyNone)
          | _ => raise e
          end) ;;
   raise (EverHomeException
            {| http_status := status_code response;
               error_code := -1;
               message := format_message (response_url response) (fst details);
               reason := snd details;
               error_headers := Some (response_headers response) |}))%py.

(** The [except requests.exceptions.RetryError] clause. *)
Definition on_retry_error (retry_error : RetryFailure) : M pyval :=
  (reason <-
     try_except
       (match args retry_error with
        | [] => raise IndexError
        | None :: _ => raise AttributeError
        | Some r :: _ => ret r
        end)
       (fun e =>
          match e with
          | IndexError | AttributeError => ret PyNone
          | _ => raise e
          end) ;;
   raise (EverHomeException
            {| http_status := 429;
               error_code := -1;
               message := format_message (path_url retry_error) (PyStr "Max Retries");
               reason := reason;
               error_headers := None |}))%py.

(** The core request operation. The [logger] calls have no effect on the
    client or the result and are left out. The source deletes content_type
    from the very dict it is given, so a caller that hands one dict object to
    the core operation twice finds the key gone the second time. [params]
    here is that mapping by value, as it stands when the call is made: the
    deletion shows in the parameters sent, and its effect on the caller's own
    object is not part of this model. The verb wrappers pass a dict of their
    own making (their keyword arguments), which no caller holds. *)
Definition _internal_call (method url : string) (payload : pyval)
    (params : gmap string pyval) : M pyval :=
  (self <- get_self ;;
   let url := if String.prefix "http" url then url else prefix self +:+ url in
   let headers := _auth_headers self in
   prepared <-
     match params !! "content_type" with
     | Some content_type =>
         ret (<["Content-Type" := content_type]> headers,
              delete "content_type" params,
              if truthy payload then Some payload else None)
     | None =>
         if truthy payload
         then (body <- lift (json_dumps payload) ;;
               ret (<["Content-Type" := PyStr "application/json"]> headers,
                    params, Some (PyStr body)))
         else ret (<["Content-Type" := PyStr "application/json"]> headers,
                   params, None)
     end ;;
   let '(headers, params, data) := prepared in
   try_except
     (response <- Session_request (_session self) method url headers PyNone
                    (requests_timeout self) params data ;;
      raise_for_status response ;;;
      Response_json response)
     (fun e =>
        match e with
        | HTTPError response => on_http_error response
        | RetryError retry_error => on_retry_error retry_error
        | ValueError => ret PyNone
        | _ => raise e
        end))%py.

(** [kwargs.update(args)] under [if args:] *)
Definition merge_args (args : option (gmap string pyval))
    (kwargs : gmap string pyval) : gmap string pyval :=
  match args with
  | Some a => if negb (bool_decide (size a = 0%nat)) then a ∪ kwargs else kwargs
  | None => kwargs
  end.

Definition _get (url : string) (args : option (gmap string pyval))
    (payload : pyval) (kwargs : gmap string pyval) : M pyval :=
  _internal_call "GET" url payload (merge_args args kwargs).

Definition _post (url : string) (args : option (gmap string pyval))
    (payload : pyval) (kwargs : gmap string pyval) : M pyval :=
  _internal_call "POST" url payload (merge_args args kwargs).

Definition _delete (url : string) (args : option (gmap string pyval))
    (payload : pyval) (kwargs : gmap string pyval) : M pyval :=
  _internal_call "DELETE" url payload (merge_args args kwargs).

Definition _put (url : string) (args : option (gmap string pyval))
    (payload : pyval) (kwargs : gmap string pyval) : M pyval :=
  _internal_call "PUT" url payload (merge_args args kwargs).

Definition user : M pyval := _get "user/current" None PyNone ∅.

Definition test : M pyval :=
  (_get "devices" None PyNone ∅ ;;; ret (PyInt 42))%py.

(** ** Sequences of calls on one client *)

(** The request operations: the core operation, the verb wrappers and the
    domain operations. *)
Inductive request_op : Type :=
| Op_internal_call (method url : string) (payload : pyval) (params : gmap string pyval)
| Op_get (url : string) (args : option (gmap string pyval)) (payload : pyval)
    (kwargs : gmap string pyval)
| Op_post (url : string) (args : option (gmap string pyval)) (payload : pyval)
    (kwargs : gmap string pyval)
| Op_delete (url : string) (args : option (gmap string pyval)) (payload : pyval)
    (kwargs : gmap string pyval)
| Op_put (url : string) (args : option (gmap string pyval)) (payload : pyval)
    (kwargs : gmap string pyval)
| Op_user
| Op_test.

(** What a caller can do with a client: replace the token, or request. *)
Inductive call : Type :=
| Call_set_auth (auth : pyval)
| Call_request (op : request_op).

Definition request (op : request_op) : M pyval :=
  match op with
  | Op_internal_call method url payload params => _internal_call method url payload params
  | Op_get url args payload kwargs => _get url args payload kwargs
  | Op_post url args payload kwargs => _post url args payload kwargs
  | Op_delete url args payload kwargs => _delete url args payload kwargs
  | Op_put url args payload kwargs => _put url args payload kwargs
  | Op_user => user
  | Op_test => test
  end.

Definition perform (c : call) : M pyval :=
  match c with
  | Call_set_auth auth => set_auth auth
  | Call_request op => request op
  end.

(** The state a call leaves behind, whether it returned or raised. *)
Definition after (c : call) (st : State) : State := snd (perform c st).

Definition run (cs : list call) (st : State) : State :=
  fold_left (fun st c => after c st) cs st.

(** A freshly constructed client, before any call. *)
Definition constructed (auth requests_timeout : pyval) : State :=
  {| self := __init__ auth requests_timeout; issued := [] |}.

(** The requests a computation hands to the session when run from [st]. *)
Definition sent_by {A} (c : M A) (st : State) : list (Session * Request) :=
  drop (length (issued st)) (issued (snd (c st))).

(** Their URLs, and their bodies. *)
Definition urls_sent_by {A} (c : M A) (st : State) : list string :=
  (url ∘ snd) <$> sent_by c st.

Definition bodies_sent_by {A} (c : M A) (st : State) : list (option pyval) :=
  (data ∘ snd) <$> sent_by c st.

(** The number of request operations among some calls. *)
Definition is_request (c : call) : bool :=
  match c with Call_request _ => true | Call_set_auth _ => false end.

(** The request operations that reach the core operation through a verb
    wrapper, with a parameter dict the wrapper made itself. *)
Definition through_wrapper (op : request_op) : bool :=
  match op with
  | Op_internal_call _ _ _ _ => false
  | _ => true
  end.

Definition count_requests (cs : list call) : nat :=
  length (List.filter is_request cs).

(** The session's answer to the one request a computation sends. *)
Definition answer_to {A} (c : M A) (st : State) : option (exn + Response) :=
  match sent_by c st with
  | [(session, req)] => Some (send session (issued st) req)
  | _ => None
  end.

(** The request carries [Authorization: Bearer <token>]. *)
Definition bearer (token : pyval) (sr : Session * Request) : Prop :=
  headers (snd sr) !! "Authorization" = Some (PyStr ("Bearer " +:+ py_str token)).

(** ** Functional reading of the core operation

    The request that lines 70-83 of [_internal_call] build, and the result
    that the [try] statement of lines 88-137 makes of the session's answer,
    as pure functions. [internal_call_eq] below shows that [_internal_call]
    computes exactly these. *)

Definition prepare_request (self : EverHome) (method url : string)
    (payload : pyval) (params : gmap string pyval) : exn + Request :=
  let target := if String.prefix "http" url then url else prefix self +:+ url in
  match params !! "content_type" with
  | Some content_type =>
      inr {| method := method; url := target;
             headers := <["Content-Type" := content_type]> (_auth_headers self);
             proxies := PyNone; timeout := requests_timeout self;
             params := delete "content_type" params;
             data := if truthy payload then Some payload else None |}
  | None =>
      if truthy payload
      then match json_dumps payload with
           | inl e => inl e
           | inr body =>
               inr {| method := method; url := target;
                      headers := <["Content-Type" := PyStr "application/json"]>
                                   (_auth_headers self);
                      proxies := PyNone; timeout := requests_timeout self;
                      params := params; data := Some (PyStr body) |}
           end
      else inr {| method := method; url := target;
                  headers := <["Content-Type" := PyStr "application/json"]>
                               (_auth_headers self);
                  proxies := PyNone; timeout := requests_timeout self;
                  params := params; data := None |}
  end.

Definition error_of_response (response : Response) : exn :=
  let typed msg why :=
    EverHomeException
      {| http_status := status_code response; error_code := -1;
         message := format_message (response_url response) msg;
         reason := why;
         error_headers := Some (response_headers response) |} in
  match json_body response with
  | None =>
      typed (if truthy (PyStr (text response)) then PyStr (text response) else PyNone)
            PyNone
  | Some (PyDict d) =>
      match assoc_get d "error" (PyDict []) with
      | PyDict e => typed (assoc_get e "message" PyNone) (assoc_get e "reason" PyNone)
      | _ => AttributeError
      end
  | Some _ => AttributeError
  end.

Definition error_of_retry (retry_error : RetryFailure) : exn :=
  EverHomeException
    {| http_status := 429; error_code := -1;
       message := format_message (path_url retry_error) (PyStr "Max Retries");
       reason := match args retry_error with Some r :: _ => r | _ => PyNone end;
       error_headers := None |}.

Definition is_error_status (code : Z) : bool := (400 <=? code) && (code <? 600).

Definition settle (answer : exn + Response) : exn + pyval :=
  match answer with
  | inr response =>
      if is_error_status (status_code response)
      then inl (error_of_response response)
      else inr (match json_body response with Some v => v | None => PyNone end)
  | inl (HTTPError response) => inl (error_of_response response)
  | inl (RetryError retry_error) => inl (error_of_retry retry_error)
  | inl ValueError => inr PyNone
  | inl e => inl e
  end.

(** An exception class that no [except] clause of the core operation names. *)
Definition untranslated (e : exn) : bool :=
  match e with
  | HTTPError _ | RetryError _ | ValueError => false
  | _ => true
  end.

(** An error body the [except HTTPError] clause can take apart: not JSON, or
    a JSON object whose error member is absent or an object. *)
Definition error_body_shaped (response : Response) : bool :=
  match json_body response with
  | None => true
  | Some (PyDict d) =>
      match assoc_get d "error" (PyDict []) with
      | PyDict _ => true
      | _ => false
      end
  | Some _ => false
  end.

(** The response the [except HTTPError] clause gets to see, if any. *)
Definition error_response (answer : exn + Response) : option Response :=
  match answer with
  | inr response =>
      if is_error_status (status_code response) then Some response else None
  | inl (HTTPError response) => Some response
  | inl _ => None
  end.

(** ** Symbolic execution of a call *)

Ltac unfold_call :=
  unfold after, perform, request, user, test, _get, _post, _delete, _put, set_auth,
    _internal_call, on_http_error, on_retry_error, py_get, Response_json,
    raise_for_status, Session_request, try_except, bind, lift,
    ret, raise, get_self, set_self in *;
  cbn [fst snd self issued] in *.

Lemma on_http_error_eq response st :
  on_http_error response st = (inl (error_of_response response), st).
Proof.
  unfold error_of_response. unfold_call.
  destruct (json_body response) as [[]|]; cbn; try reflexivity.
  destruct (assoc_get d "error" (PyDict [])); reflexivity.
Qed.

Lemma on_retry_error_eq retry_error st :
  on_retry_error retry_error st = (inl (error_of_retry retry_error), st).
Proof.
  unfold error_of_retry. unfold_call.
  destruct (args retry_error) as [|[r|] rest]; reflexivity.
Qed.

(** The core operation builds the request, hands it to its session once,
    and settles the answer; when [json.dumps] raises, nothing is sent. *)
Lemma internal_call_eq method url payload params st :
  _internal_call method url payload params st =
  match prepare_request (self st) method url payload params with
  | inl e => (inl e, st)
  | inr req =>
      (settle (send (_session (self st)) (issued st) req),
       {| self := self st;
          issued := issued st ++ [(_session (self st), req)] |})
  end.
Proof.
  assert (Htry : forall m u h t ps d,
    try_except
      (response <- Session_request (_session (self st)) m u h PyNone t ps d ;;
       raise_for_status response ;;;
       Response_json response)%py
      (fun e =>
         match e with
         | HTTPError response => on_http_error response
         | RetryError retry_error => on_retry_error retry_error
         | ValueError => ret PyNone
         | _ => raise e
         end) st
    = (settle (send (_session (self st)) (issued st)
                 {| method := m; url := u; headers := h; proxies := PyNone;
                    timeout := t; params := ps; data := d |}),
       {| self := self st;
          issued := issued st ++ [(_session (self st),
                 {| method := m; url := u; headers := h; proxies := PyNone;
                    timeout := t; params := ps; data := d |})] |})).
  { intros m u h t ps d.
    unfold try_except, bind, Session_request, raise_for_status, Response_json,
      settle, is_error_status, ret, raise.
    destruct (send _ _ _) as [e|response]; cbn.
    - destruct e; try reflexivity.
      + apply on_http_error_eq.
      + apply on_retry_error_eq.
    - destruct ((400 <=? status_code response) && (status_code response <? 600)); cbn.
      + apply on_http_error_eq.
      + destruct (json_body response); reflexivity. }
  unfold _internal_call, prepare_request, bind at 1, get_self.
  destruct (params !! "content_type") as [ct|].
  - unfold bind, ret. apply Htry.
  - destruct (truthy payload).
    + unfold bind at 1, bind at 1, lift.
      destruct (json_dumps payload) as [e|body]; [reflexivity|].
      unfold ret at 1. apply Htry.
    + unfold bind, ret. apply Htry.
Qed.

(** ** What a request operation sends *)

Lemma sent_by_internal_call method url payload params st :
  sent_by (_internal_call method url payload params) st =
  match prepare_request (self st) method url payload params with
  | inl _ => []
  | inr req => [(_session (self st), req)]
  end.
Proof.
  unfold sent_by. rewrite internal_call_eq.
  destruct (prepare_request _ _ _ _ _); cbn.
  - apply drop_all.
  - apply drop_app_length.
Qed.

Lemma issued_internal_call method url payload params st :
  issued (snd (_internal_call method url payload params st)) =
  issued st ++ sent_by (_internal_call method url payload params) st.
Proof.
  rewrite sent_by_internal_call, internal_call_eq.
  destruct (prepare_request _ _ _ _ _); cbn; [by rewrite app_nil_r | done].
Qed.

Lemma answer_to_internal_call method url payload params st answer :
  answer_to (_internal_call method url payload params) st = Some answer ->
  exists req,
    prepare_request (self st) method url payload params = inr req
    /\ send (_session (self st)) (issued st) req = answer.
Proof.
  unfold answer_to. rewrite sent_by_internal_call.
  destruct (prepare_request _ _ _ _ _) as [e|req]; [done|].
  intros [= <-]. eauto.
Qed.

(** Every request operation is the core operation at some arguments, as far
    as the client and the session can tell. *)
Lemma request_as_internal_call op :
  exists method url payload params, forall st,
    snd (request op st) = snd (_internal_call method url payload params st).
Proof.
  destruct op; unfold request, user, test, _get, _post, _delete, _put;
    try (do 4 eexists; intros st; reflexivity).
  exists "GET", "devices", PyNone, (merge_args None ∅). intros st.
  unfold bind, ret.
  destruct (_internal_call _ _ _ _ st) as [[e|v] st']; reflexivity.
Qed.

Lemma self_internal_call method url payload params st :
  self (snd (_internal_call method url payload params st)) = self st.
Proof.
  rewrite internal_call_eq. by destruct (prepare_request _ _ _ _ _).
Qed.

Lemma self_request op st : self (snd (request op st)) = self st.
Proof.
  destruct (request_as_internal_call op) as (m & u & p & ps & ->).
  apply self_internal_call.
Qed.

Lemma sent_by_request op st :
  exists method url payload params,
    sent_by (request op) st = sent_by (_internal_call method url payload params) st
    /\ issued (snd (request op st)) = issued st ++ sent_by (request op) st.
Proof.
  destruct (request_as_internal_call op) as (m & u & p & ps & Heq).
  exists m, u, p, ps. unfold sent_by at 1 3. rewrite Heq.
  split; [done|]. apply issued_internal_call.
Qed.

Lemma prepare_request_authorization self method url payload params req :
  prepare_request self method url payload params = inr req ->
  headers req !! "Authorization" = Some (PyStr ("Bearer " +:+ py_str (_auth self))).
Proof.
  unfold prepare_request, _auth_headers. intros H.
  repeat case_match; simplify_eq/=; by simplify_map_eq.
Qed.

(** The core operation either fails in [json.dumps] before anything is
    sent, or sends exactly the prepared request through its own session. *)
Lemma internal_call_sends method url payload params st :
  (exists e, json_dumps payload = inl e
     /\ params !! "content_type" = None /\ truthy payload = true
     /\ sent_by (_internal_call method url payload params) st = []
     /\ _internal_call method url payload params st = (inl e, st))
  \/ (exists req, prepare_request (self st) method url payload params = inr req
     /\ sent_by (_internal_call method url payload params) st
        = [(_session (self st), req)]).
Proof.
  rewrite sent_by_internal_call, internal_call_eq.
  destruct (prepare_request _ _ _ _ _) as [e|req] eqn:Hreq; [left | right; eauto].
  exists e. unfold prepare_request in Hreq.
  repeat case_match; simplify_eq/=; done.
Qed.

(** ** The client object across calls *)

Lemma self_after_request op st : self (after (Call_request op) st) = self st.
Proof. apply self_request. Qed.

Lemma fields_after c st :
  prefix (self (after c st)) = prefix (self st)
  /\ _session (self (after c st)) = _session (self st)
  /\ requests_timeout (self (after c st)) = requests_timeout (self st).
Proof.
  destruct c as [auth|op].
  - by unfold_call.
  - by rewrite self_after_request.
Qed.

Lemma fields_run cs st :
  prefix (self (run cs st)) = prefix (self st)
  /\ _session (self (run cs st)) = _session (self st)
  /\ requests_timeout (self (run cs st)) = requests_timeout (self st).
Proof.
  revert st. induction cs as [|c cs IH]; intros st; [done|].
  change (run (c :: cs) st) with (run cs (after c st)).
  destruct (IH (after c st)) as (-> & -> & ->). apply fields_after.
Qed.

(** The base URL of a constructed client stays the constructor's literal. *)
Lemma prefix_fixed auth requests_timeout cs :
  prefix (self (run cs (constructed auth requests_timeout))) = "https://everhome.cloud/".
Proof. by destruct (fields_run cs (constructed auth requests_timeout)) as (-> & _). Qed.

(** The session of a constructed client stays the one [_build_session] made. *)
Lemma session_fixed auth requests_timeout cs :
  _session (self (run cs (constructed auth requests_timeout))) = _build_session.
Proof. by destruct (fields_run cs (constructed auth requests_timeout)) as (_ & -> & _). Qed.

(** Every request of a constructed client goes through that one session. *)
Lemma issued_through_session auth requests_timeout cs :
  Forall (fun sr => fst sr = _build_session)
    (issued (run cs (constructed auth requests_timeout))).
Proof.
  assert (Hgen : forall st,
    _session (self st) = _build_session ->
    Forall (fun sr => fst sr = _build_session) (issued st) ->
    Forall (fun sr => fst sr = _build_session) (issued (run cs st))).
  { induction cs as [|c cs IH]; intros st Hs Hall; [done|].
    change (run (c :: cs) st) with (run cs (after c st)). apply IH.
    - destruct (fields_after c st) as (_ & -> & _). done.
    - destruct c as [auth'|op]; [by unfold_call|].
      unfold after, perform.
      destruct (sent_by_request op st) as (m & u & p & ps & Hsent & ->).
      apply Forall_app. split; [done|]. rewrite Hsent.
      destruct (internal_call_sends m u p ps st)
        as [(e & _ & _ & _ & -> & _) | (req & _ & ->)]; [done|].
      by repeat constructor. }
  apply Hgen; [done | constructor].
Qed.

(** A request operation sends the token the client holds when called. *)
Lemma sent_by_bearer op st :
  Forall (bearer (_auth (self st))) (sent_by (request op) st).
Proof.
  destruct (sent_by_request op st) as (m & u & p & ps & -> & _).
  destruct (internal_call_sends m u p ps st)
    as [(e & _ & _ & _ & -> & _) | (req & Hreq & ->)]; [done|].
  repeat constructor. unfold bearer. cbn.
  by eapply prepare_request_authorization.
Qed.

(** However many request operations follow one another, they all send the
    token the client held at the start, and leave the client as it was. *)
Lemma run_requests_bearer ops st :
  exists later,
    issued (run (Call_request <$> ops) st) = issued st ++ later
    /\ Forall (bearer (_auth (self st))) later
    /\ self (run (Call_request <$> ops) st) = self st.
Proof.
  revert st. induction ops as [|op ops IH]; intros st.
  - exists []. by rewrite app_nil_r.
  - change (run (Call_request <$> op :: ops) st)
      with (run (Call_request <$> ops) (after (Call_request op) st)).
    destruct (IH (after (Call_request op) st)) as (later & -> & Hall & ->).
    rewrite self_after_request in *.
    unfold after at 1, perform.
    destruct (sent_by_request op st) as (? & ? & ? & ? & _ & ->).
    exists (sent_by (request op) st ++ later).
    rewrite <- app_assoc. split; [done|]. split; [|done].
    apply Forall_app. split; [apply sent_by_bearer | done].
Qed.

(** ** The claims about the request *)

(** C2 (as amended). On a constructed client, whatever calls came before,
    the core request operation prefixes the given URL with the fixed base URL
    https://everhome.cloud/ exactly when the URL does not start with the
    four characters http, and hands it to the session unmodified when it
    does. (No request is sent at all when serializing the payload raises.) *)
Theorem internal_call_resolves_url auth requests_timeout cs method path payload params :
  let st := run cs (constructed auth requests_timeout) in
  (exists e, json_dumps payload = inl e
     /\ _internal_call method path payload params st = (inl e, st))
  \/ (exists req,
       sent_by (_internal_call method path payload params) st
         = [(_session (self st), req)]
       /\ url req = if String.prefix "http" path then path
                    else "https://everhome.cloud/" +:+ path).
Proof.
  intros st.
  destruct (internal_call_sends method path payload params st)
    as [(e & He & _ & _ & _ & Hcall) | (req & Hreq & Hsent)]; [left; eauto|].
  right. exists req. split; [done|].
  unfold prepare_request in Hreq. subst st. rewrite prefix_fixed in Hreq.
  repeat case_match; simplify_eq/=; done.
Qed.

(** C3 (as amended). When the parameter mapping has the key content_type,
    its value is the Content-Type header, the key is removed from the
    parameters sent, and a truthy payload is sent unmodified. Otherwise
    Content-Type is application/json and a truthy payload is sent as its
    JSON serialization (if serializing raises, the call raises that and
    sends nothing). In both cases a falsy payload (None, False, 0, an empty
    string or container) sends no body. *)
Theorem internal_call_content_type method path payload mapping st :
  let sent := sent_by (_internal_call method path payload mapping) st in
  match mapping !! "content_type" with
  | Some content_type =>
      exists req, sent = [(_session (self st), req)]
        /\ headers req !! "Content-Type" = Some content_type
        /\ params req = delete "content_type" mapping
        /\ data req = if truthy payload then Some payload else None
  | None =>
      if truthy payload
      then match json_dumps payload with
           | inr body =>
               exists req, sent = [(_session (self st), req)]
                 /\ headers req !! "Content-Type" = Some (PyStr "application/json")
                 /\ params req = mapping
                 /\ data req = Some (PyStr body)
           | inl e =>
               sent = []
               /\ _internal_call method path payload mapping st = (inl e, st)
           end
      else exists req, sent = [(_session (self st), req)]
             /\ headers req !! "Content-Type" = Some (PyStr "application/json")
             /\ params req = mapping
             /\ data req = None
  end.
Proof.
  intros sent. subst sent.
  rewrite sent_by_internal_call, internal_call_eq. unfold prepare_request.
  destruct (mapping !! "content_type") as [ct|].
  - eexists. split; [done|]. cbn. by simplify_map_eq.
  - destruct (truthy payload).
    + destruct (json_dumps payload) as [e|body]; [done|].
      eexists. split; [done|]. cbn. by simplify_map_eq.
    + eexists. split; [done|]. cbn. by simplify_map_eq.
Qed.

(** C9. Every request a request operation sends carries the header
    Authorization: Bearer <token>, the token being the one the client
    stores when the operation is called. [set_auth] replaces the stored
    token: every request operation called after it sends the new token, while
    the requests sent before it stay as they were sent, with the old one. *)
Theorem authorization_is_current_token op ops token st :
  let st1 := after (Call_request op) st in
  let st2 := after (Call_set_auth token) st1 in
  let st3 := run (Call_request <$> ops) st2 in
  Forall (bearer (_auth (self st))) (sent_by (request op) st)
  /\ issued st1 = issued st ++ sent_by (request op) st
  /\ _auth (self st2) = token
  /\ issued st2 = issued st1
  /\ exists later,
       issued st3 = issued st1 ++ later
       /\ Forall (bearer token) later
       /\ _auth (self st3) = token.
Proof.
  intros st1 st2 st3.
  assert (Hauth : _auth (self st2) = token) by (subst st2; by unfold_call).
  assert (Hlog : issued st2 = issued st1) by (subst st2; by unfold_call).
  repeat split; try done.
  - apply sent_by_bearer.
  - subst st1; unfold after, perform.
    by destruct (sent_by_request op st) as (? & ? & ? & ? & _ & ->).
  - destruct (run_requests_bearer ops st2) as (later & Hlater & Hall & Hself).
    exists later. fold st3 in Hlater, Hself.
    by rewrite Hlater, Hlog, Hself, Hauth in *.
Qed.

(** C10. [set_auth] stores the given token and leaves the base URL prefix,
    the request timeout and the session untouched; every request operation
    (the core call, each verb wrapper, user and test) leaves the whole client
    object as it found it, whether it returns or raises. *)
Theorem calls_frame_client c st :
  match c with
  | Call_set_auth auth =>
      _auth (self (after c st)) = auth
      /\ prefix (self (after c st)) = prefix (self st)
      /\ requests_timeout (self (after c st)) = requests_timeout (self st)
      /\ _session (self (after c st)) = _session (self st)
  | Call_request op => self (after c st) = self st
  end.
Proof.
  destruct c as [auth|op].
  - by unfold_call.
  - apply self_after_request.
Qed.

(** ** The claims about the outcome *)

(** The result of the core operation once the session has answered. *)
Lemma internal_call_settles method url payload params st answer :
  answer_to (_internal_call method url payload params) st = Some answer ->
  fst (_internal_call method url payload params st) = settle answer.
Proof.
  intros (req & Hreq & <-)%answer_to_internal_call.
  by rewrite internal_call_eq, Hreq.
Qed.

(** C4. When the session answers with a response of HTTP error status
    (400 to 599) whose body decodes to a JSON object with an error object
    carrying message and reason, the core request operation raises the typed
    Error with the response's status code, error code -1, the message
    "<URL of the response>:\n <message>", the extracted reason, and the
    response's headers. *)
Theorem http_error_with_json_body method url payload params st response d e msg why :
  answer_to (_internal_call method url payload params) st = Some (inr response) ->
  is_error_status (status_code response) = true ->
  json_body response = Some (PyDict d) ->
  assoc_lookup d "error" = Some (PyDict e) ->
  assoc_lookup e "message" = Some msg ->
  assoc_lookup e "reason" = Some why ->
  fst (_internal_call method url payload params st) =
  inl (EverHomeException
         {| http_status := status_code response;
            error_code := -1;
            message := response_url response +:+ ":"
                       +:+ String "010"%char (" " +:+ py_str msg);
            reason := why;
            error_headers := Some (response_headers response) |}).
Proof.
  intros Hanswer Hstatus Hjson Herror Hmsg Hwhy.
  rewrite (internal_call_settles _ _ _ _ _ _ Hanswer).
  unfold settle, error_of_response, assoc_get.
  by rewrite Hstatus, Hjson, Herror, Hmsg, Hwhy.
Qed.

(** C5. When the session answers with a response of HTTP error status whose
    body does not decode as JSON, the raised Error's message is built from the
    raw response text when that text is not empty and from None when it is
    empty, and its reason is None. *)
Theorem http_error_without_json_body method url payload params st response :
  answer_to (_internal_call method url payload params) st = Some (inr response) ->
  is_error_status (status_code response) = true ->
  json_body response = None ->
  fst (_internal_call method url payload params st) =
  inl (EverHomeException
         {| http_status := status_code response;
            error_code := -1;
            message := format_message (response_url response)
                         (if String.eqb (text response) "" then PyNone
                          else PyStr (text response));
            reason := PyNone;
            error_headers := Some (response_headers response) |})
  /\ format_message (response_url response) PyNone
     = response_url response +:+ ":" +:+ String "010"%char " None"
  /\ format_message (response_url response) (PyStr (text response))
     = response_url response +:+ ":" +:+ String "010"%char (" " +:+ text response).
Proof.
  intros Hanswer Hstatus Hjson.
  rewrite (internal_call_settles _ _ _ _ _ _ Hanswer).
  unfold settle, error_of_response. rewrite Hstatus, Hjson. cbn.
  by destruct (String.eqb (text response) "").
Qed.

(** C6. When the session raises the retry-exhaustion error, the core request
    operation raises the typed Error with http_status 429, error code -1, the
    message "<request path>:\n Max Retries", the reason attribute of the retry
    failure's first argument (None when there is no argument or it has no
    such attribute), and no headers. *)
Theorem retry_exhaustion method url payload params st retry_error :
  answer_to (_internal_call method url payload params) st
    = Some (inl (RetryError retry_error)) ->
  fst (_internal_call method url payload params st) =
  inl (EverHomeException
         {| http_status := 429;
            error_code := -1;
            message := path_url retry_error +:+ ":"
                       +:+ String "010"%char " Max Retries";
            reason := match args retry_error with
                      | Some r :: _ => r
                      | _ => PyNone
                      end;
            error_headers := None |}).
Proof.
  intros Hanswer. by rewrite (internal_call_settles _ _ _ _ _ _ Hanswer).
Qed.

(** C7. When the session answers with a response whose status is not an
    HTTP error status, the core request operation returns the decoded JSON
    body, and returns None, without raising, when the body does not decode. *)
Theorem success_returns_json_or_none method url payload params st response :
  answer_to (_internal_call method url payload params) st = Some (inr response) ->
  is_error_status (status_code response) = false ->
  fst (_internal_call method url payload params st) =
  inr (match json_body response with
       | Some v => v
       | None => PyNone
       end).
Proof.
  intros Hanswer Hstatus.
  rewrite (internal_call_settles _ _ _ _ _ _ Hanswer).
  unfold settle. by rewrite Hstatus.
Qed.

(** Every failure of the core operation is the typed Error, an exception
    of [json.dumps], or an exception of the session that no [except] clause
    names. *)
Lemma failures_classified method url payload params st e :
  fst (_internal_call method url payload params st) = inl e ->
  (forall answer response,
     answer_to (_internal_call method url payload params) st = Some answer ->
     error_response answer = Some response ->
     error_body_shaped response = true) ->
  (exists err, e = EverHomeException err)
  \/ (json_dumps payload = inl e
      /\ sent_by (_internal_call method url payload params) st = [])
  \/ (answer_to (_internal_call method url payload params) st = Some (inl e)
      /\ untranslated e = true).
Proof.
  intros Hfail Hshape.
  destruct (internal_call_sends method url payload params st)
    as [(e' & He' & _ & _ & Hsent & Hcall) | (req & Hreq & Hsent)].
  - right; left. rewrite Hcall in Hfail. by simplify_eq/=.
  - assert (Hanswer : answer_to (_internal_call method url payload params) st
                      = Some (send (_session (self st)) (issued st) req)).
    { unfold answer_to. by rewrite Hsent. }
    assert (Hshape' := fun response => Hshape _ response Hanswer).
    clear Hshape.
    rewrite (internal_call_settles _ _ _ _ _ _ Hanswer) in Hfail.
    rewrite Hanswer. clear Hanswer Hsent Hreq.
    assert (Htyped : forall response, error_body_shaped response = true ->
              exists err, error_of_response response = EverHomeException err).
    { intros response. unfold error_body_shaped, error_of_response.
      destruct (json_body response) as [[]|]; try done; [|eauto].
      destruct (assoc_get _ _ _); try done. eauto. }
    destruct (send _ _ _) as [raised|response]; cbn in *.
    + destruct raised as [err|response|retry_error| | | | |cls]; simplify_eq/=;
        [eauto | | unfold error_of_retry; eauto | eauto ..].
      left. apply Htyped. by apply Hshape'.
    + destruct (is_error_status (status_code response)); [|done].
      simplify_eq/=. left. apply Htyped. by apply Hshape'.
Qed.

(** C8 (as amended). Provided the body of an HTTP error response is not
    JSON or is a JSON object whose error member is absent or an object: a
    failure of the core request operation that comes from an HTTP error
    response or from retry exhaustion is surfaced to the immediate caller as
    the single typed Error (with the response's status and headers, or 429
    and no headers, and error code -1). An exception raised by the session
    whose class is none of HTTPError, RetryError and ValueError (a connection
    error, a timeout), and an exception raised while serializing the payload,
    is not translated: the call fails with it exactly as it was raised. A
    ValueError raised by the session is no failure at all: it is swallowed
    and the call returns None. These are the only failures there are. *)
Theorem failures_surface method url payload params st :
  (forall answer response,
     answer_to (_internal_call method url payload params) st = Some answer ->
     error_response answer = Some response ->
     error_body_shaped response = true) ->
  (forall response,
     answer_to (_internal_call method url payload params) st = Some (inr response) ->
     is_error_status (status_code response) = true ->
     exists err,
       fst (_internal_call method url payload params st) = inl (EverHomeException err)
       /\ http_status err = status_code response
       /\ error_code err = -1
       /\ error_headers err = Some (response_headers response))
  /\ (forall retry_error,
       answer_to (_internal_call method url payload params) st
         = Some (inl (RetryError retry_error)) ->
       exists err,
         fst (_internal_call method url payload params st) = inl (EverHomeException err)
         /\ http_status err = 429
         /\ error_code err = -1
         /\ error_headers err = None)
  /\ (forall e,
       answer_to (_internal_call method url payload params) st = Some (inl e) ->
       untranslated e = true ->
       fst (_internal_call method url payload params st) = inl e)
  /\ (forall e,
       sent_by (_internal_call method url payload params) st = [] ->
       json_dumps payload = inl e ->
       _internal_call method url payload params st = (inl e, st))
  /\ (answer_to (_internal_call method url payload params) st = Some (inl ValueError) ->
      fst (_internal_call method url payload params st) = inr PyNone)
  /\ (forall e,
       fst (_internal_call method url payload params st) = inl e ->
       (exists err, e = EverHomeException err)
       \/ (json_dumps payload = inl e
           /\ sent_by (_internal_call method url payload params) st = [])
       \/ (answer_to (_internal_call method url payload params) st = Some (inl e)
           /\ untranslated e = true)).
Proof.
  intros Hshape. repeat split.
  - intros response Hanswer Hstatus.
    rewrite (internal_call_settles _ _ _ _ _ _ Hanswer).
    assert (Hok : error_body_shaped response = true).
    { apply (Hshape _ _ Hanswer). cbn. by rewrite Hstatus. }
    unfold settle, error_of_response. rewrite Hstatus.
    unfold error_body_shaped in Hok.
    destruct (json_body response) as [[]|]; try done; [|eauto].
    destruct (assoc_get _ _ _); try done. eauto.
  - intros retry_error Hanswer.
    rewrite (internal_call_settles _ _ _ _ _ _ Hanswer).
    unfold settle, error_of_retry. eauto.
  - intros e Hanswer Hclass.
    rewrite (internal_call_settles _ _ _ _ _ _ Hanswer). by destruct e.
  - intros e Hsent Hdumps.
    destruct (internal_call_sends method url payload params st)
      as [(e' & He' & _ & _ & _ & Hcall) | (req & _ & Hsent')].
    + rewrite Hcall. congruence.
    + rewrite Hsent' in Hsent. done.
  - intros Hanswer. by rewrite (internal_call_settles _ _ _ _ _ _ Hanswer).
  - intros e Hfail. by apply failures_classified.
Qed.

(** ** Further properties: what the request operations send *)

Lemma merge_args_union args kwargs :
  merge_args args kwargs = default ∅ args ∪ kwargs.
Proof.
  destruct args as [a|]; cbn; [|by rewrite (left_id_L ∅ (∪))].
  case_bool_decide as Hsize; cbn; [|done].
  apply map_size_empty_inv in Hsize. subst a.
  by rewrite (left_id_L ∅ (∪)).
Qed.

(** The fields of the request the core operation prepares. *)
Lemma prepare_request_fields self meth path payload mapping req :
  prepare_request self meth path payload mapping = inr req ->
  method req = meth
  /\ url req = (if String.prefix "http" path then path else prefix self +:+ path)
  /\ headers req
     = <["Content-Type" := default (PyStr "application/json")
                            (mapping !! "content_type")]> (_auth_headers self)
  /\ proxies req = PyNone
  /\ timeout req = requests_timeout self
  /\ params req = delete "content_type" mapping
  /\ (truthy payload = false -> data req = None).
Proof.
  unfold prepare_request. intros Hreq.
  destruct (mapping !! "content_type") as [ct|] eqn:Hct.
  - simplify_eq/=. repeat split; try done. by intros ->.
  - rewrite (delete_id _ _ Hct).
    destruct (truthy payload); [destruct (json_dumps payload)|];
      simplify_eq/=; done.
Qed.

(** What a request operation sends is what the core operation sends at the
    same arguments. *)
Lemma sent_by_wrapper meth path args payload kwargs st :
  sent_by (_internal_call meth path payload (merge_args args kwargs)) st
  = match prepare_request (self st) meth path payload (default ∅ args ∪ kwargs) with
    | inl _ => []
    | inr req => [(_session (self st), req)]
    end.
Proof. by rewrite sent_by_internal_call, merge_args_union. Qed.

(** X1. A verb wrapper sends its own HTTP method (GET for [_get], POST for
    [_post], DELETE for [_delete], PUT for [_put]) and the keyword parameters
    updated with the extra arguments mapping: an entry of [args] replaces the
    keyword parameter of the same name, an absent or empty [args] changes
    nothing. The reserved key content_type is taken from the merged mapping,
    so it may come from either of the two: it is dropped from the parameters
    sent and its value, or application/json without it, is the Content-Type
    header. *)
Theorem wrappers_merge_args path args payload kwargs st :
  let merged := default ∅ args ∪ kwargs in
  let shape (verb : string) (sr : Session * Request) :=
    method (snd sr) = verb
    /\ params (snd sr) = delete "content_type" merged
    /\ headers (snd sr) !! "Content-Type"
       = Some (default (PyStr "application/json") (merged !! "content_type")) in
  Forall (shape "GET") (sent_by (_get path args payload kwargs) st)
  /\ Forall (shape "POST") (sent_by (_post path args payload kwargs) st)
  /\ Forall (shape "DELETE") (sent_by (_delete path args payload kwargs) st)
  /\ Forall (shape "PUT") (sent_by (_put path args payload kwargs) st).
Proof.
  intros merged shape.
  assert (Hany : forall verb,
    Forall (shape verb)
      (sent_by (_internal_call verb path payload (merge_args args kwargs)) st)).
  { intros verb. rewrite sent_by_wrapper. fold merged.
    destruct (prepare_request (self st) verb path payload merged)
      as [e|req] eqn:Hreq; [constructor|].
    destruct (prepare_request_fields _ _ _ _ _ _ Hreq)
      as (Hmethod & _ & Hheaders & _ & _ & Hparams & _).
    repeat constructor; cbn; [done..|].
    rewrite Hheaders. by simplify_map_eq. }
  unfold _get, _post, _delete, _put. repeat split; apply Hany.
Qed.

(** What a request operation sends, by the arguments it gives the core
    operation. *)
Lemma sent_by_request_eq op :
  exists meth path payload mapping, forall st,
    sent_by (request op) st
    = match prepare_request (self st) meth path payload mapping with
      | inl _ => []
      | inr req => [(_session (self st), req)]
      end.
Proof.
  destruct (request_as_internal_call op) as (m & u & p & ps & Heq).
  exists m, u, p, ps. intros st.
  rewrite <- sent_by_internal_call. unfold sent_by. by rewrite Heq.
Qed.

(** X2. On a constructed client, whatever calls came before, [user] sends
    exactly one request: a GET of https://everhome.cloud/user/current through
    the session built at construction, with the bearer token of the moment,
    Content-Type application/json, the constructor's timeout, no proxies, no
    parameters and no body. *)
Theorem user_request auth tmo cs :
  let st := run cs (constructed auth tmo) in
  sent_by user st =
  [(_build_session,
    {| method := "GET";
       url := "https://everhome.cloud/user/current";
       headers := <["Content-Type" := PyStr "application/json"]>
                    {[ "Authorization" := PyStr ("Bearer " +:+ py_str (_auth (self st))) ]};
       proxies := PyNone;
       timeout := tmo;
       params := ∅;
       data := None |})].
Proof.
  intros st. unfold user, _get. rewrite sent_by_internal_call.
  destruct (fields_run cs (constructed auth tmo)) as (Hprefix & Hsession & Htimeout).
  fold st in Hprefix, Hsession, Htimeout.
  unfold prepare_request, _auth_headers, merge_args.
  rewrite lookup_empty, Hprefix, Hsession, Htimeout. reflexivity.
Qed.

(** X3. [test] throws the answer away: whenever the session answers its GET
    with a response that has no HTTP error status, it returns 42, whatever
    the body is and whether or not the body is JSON. *)
Theorem test_returns_42 st response :
  answer_to test st = Some (inr response) ->
  is_error_status (status_code response) = false ->
  fst (test st) = inr (PyInt 42).
Proof.
  intros Hanswer Hstatus.
  assert (Hsent : sent_by test st
                  = sent_by (_internal_call "GET" "devices" PyNone (merge_args None ∅)) st).
  { unfold sent_by, test, _get, bind, ret.
    by destruct (_internal_call _ _ _ _ st) as [[e|v] st']. }
  unfold answer_to in Hanswer. rewrite Hsent in Hanswer.
  pose proof (internal_call_settles "GET" "devices" PyNone
                (merge_args None ∅) st _ Hanswer) as Hget.
  unfold settle in Hget. rewrite Hstatus in Hget.
  unfold test, _get, bind, ret.
  destruct (_internal_call _ _ _ _ st) as [[e|v] st']; by simplify_eq/=.
Qed.

(** X4. Every request a request operation sends has exactly two headers,
    Authorization and Content-Type, and never has the reserved key
    content_type among its parameters. *)
Theorem requests_headers_and_params op st :
  Forall (fun sr =>
            dom (headers (snd sr)) = ({[ "Authorization"; "Content-Type" ]} : gset string)
            /\ params (snd sr) !! "content_type" = None)
    (sent_by (request op) st).
Proof.
  destruct (sent_by_request_eq op) as (m & u & p & ps & ->).
  destruct (prepare_request _ _ _ _ _) as [e|req] eqn:Hreq; [constructor|].
  destruct (prepare_request_fields _ _ _ _ _ _ Hreq)
    as (_ & _ & Hheaders & _ & _ & Hparams & _).
  repeat constructor; cbn.
  - rewrite Hheaders. unfold _auth_headers.
    rewrite dom_insert_L, dom_singleton_L. set_solver.
  - rewrite Hparams. apply lookup_delete_eq.
Qed.

(** X5. A request operation hands the session at most one request (retries
    are the session's own business), and calls only ever add to the end of
    the log: after any sequence of calls the earlier requests are still
    there, followed by at most one request per request operation. *)
Theorem requests_logged_at_most_once op cs st :
  (length (sent_by (request op) st) <= 1)%nat
  /\ exists later,
       issued (run cs st) = issued st ++ later
       /\ (length later <= count_requests cs)%nat.
Proof.
  assert (Hone : forall o s, (length (sent_by (request o) s) <= 1)%nat).
  { intros o s. destruct (sent_by_request_eq o) as (m & u & p & ps & ->).
    destruct (prepare_request _ _ _ _ _); cbn; lia. }
  split; [apply Hone|].
  revert st. induction cs as [|c cs IH]; intros st.
  - exists []. by rewrite app_nil_r.
  - change (run (c :: cs) st) with (run cs (after c st)).
    destruct (IH (after c st)) as (later & -> & Hlen).
    destruct c as [token|o].
    + exists later. split; [by unfold_call|]. done.
    + unfold after at 1, perform.
      destruct (sent_by_request o st) as (? & ? & ? & ? & _ & ->).
      exists (sent_by (request o) st ++ later).
      rewrite <- app_assoc. split; [done|].
      rewrite length_app. specialize (Hone o st).
      unfold count_requests in *. cbn. lia.
Qed.

(** An invariant of the requests of a client carries over any sequence of
    calls, once [set_auth] keeps the client in the invariant's domain. *)
Lemma run_issued_invariant (I : EverHome -> Prop) (P : Session * Request -> Prop) :
  (forall c token,
     I c -> I {| prefix := prefix c; _auth := token; _session := _session c;
                 requests_timeout := requests_timeout c |}) ->
  (forall c meth path payload mapping req,
     I c -> prepare_request c meth path payload mapping = inr req ->
     P (_session c, req)) ->
  forall cs st, I (self st) -> Forall P (issued st) -> Forall P (issued (run cs st)).
Proof.
  intros Hset Hreq. induction cs as [|c cs IH]; intros st HI Hall; [done|].
  change (run (c :: cs) st) with (run cs (after c st)).
  destruct c as [token|o].
  - apply IH; unfold_call; [by apply Hset | done].
  - apply IH; [by rewrite self_after_request|].
    unfold after, perform.
    destruct (sent_by_request o st) as (? & ? & ? & ? & _ & ->).
    apply Forall_app. split; [done|].
    destruct (sent_by_request_eq o) as (m & u & p & ps & ->).
    destruct (prepare_request _ _ _ _ _) as [e|req] eqn:Hprep; [constructor|].
    repeat constructor. by eapply Hreq.
Qed.

(** X6. Every request of a constructed client, over any sequence of calls,
    is sent with the timeout given to the constructor and with no proxies
    override. *)
Theorem requests_keep_timeout auth tmo cs :
  Forall (fun sr => timeout (snd sr) = tmo /\ proxies (snd sr) = PyNone)
    (issued (run cs (constructed auth tmo))).
Proof.
  apply (run_issued_invariant (fun c => requests_timeout c = tmo)).
  - by intros c token.
  - intros c m u p ps req Hc Hreq. cbn.
    by destruct (prepare_request_fields _ _ _ _ _ _ Hreq) as (_ & _ & _ & -> & -> & _).
  - done.
  - constructor.
Qed.

(** X7. Every URL a constructed client hands to its session, over any
    sequence of calls, starts with http: it was given that way or it starts
    with the base URL. *)
Theorem requests_go_to_http_urls auth tmo cs :
  Forall (fun sr => String.prefix "http" (url (snd sr)) = true)
    (issued (run cs (constructed auth tmo))).
Proof.
  apply (run_issued_invariant (fun c => prefix c = "https://everhome.cloud/")).
  - by intros c token.
  - intros c m u p ps req Hc Hreq. cbn.
    destruct (prepare_request_fields _ _ _ _ _ _ Hreq) as (_ & -> & _).
    rewrite Hc. by destruct (String.prefix "http" u) eqn:Hu.
  - done.
  - constructor.
Qed.

(** X8. What a verb wrapper or a domain operation sends depends on its
    arguments and on the client object only: it sends the same request
    whatever wrappers and domain operations ran before it and whatever they
    were answered. (The core operation called directly is left out: it
    deletes content_type from the dict it is handed.) *)
Theorem request_ignores_history op ops st :
  forallb through_wrapper (op :: ops) = true ->
  sent_by (request op) (run (Call_request <$> ops) st) = sent_by (request op) st.
Proof.
  intros _.
  destruct (run_requests_bearer ops st) as (later & _ & _ & Hself).
  destruct (sent_by_request_eq op) as (m & u & p & ps & Heq).
  by rewrite !Heq, Hself.
Qed.

(** ** Further properties: what becomes of the session's answer *)

(** X9. In an HTTP error body that is a JSON object, whatever is missing
    reads as None: without an error member, or with an error object that
    lacks message or reason, the typed Error is raised all the same, with the
    message built from None and the reason None in place of what is missing. *)
Theorem http_error_with_partial_body method url payload params st response d e :
  answer_to (_internal_call method url payload params) st = Some (inr response) ->
  is_error_status (status_code response) = true ->
  json_body response = Some (PyDict d) ->
  assoc_get d "error" (PyDict []) = PyDict e ->
  fst (_internal_call method url payload params st) =
  inl (EverHomeException
         {| http_status := status_code response;
            error_code := -1;
            message := format_message (response_url response)
                         (assoc_get e "message" PyNone);
            reason := assoc_get e "reason" PyNone;
            error_headers := Some (response_headers response) |}).
Proof.
  intros Hanswer Hstatus Hjson Herror.
  rewrite (internal_call_settles _ _ _ _ _ _ Hanswer).
  unfold settle, error_of_response. by rewrite Hstatus, Hjson, Herror.
Qed.

(** X10. An HTTP error body that is JSON but not an object, or whose error
    member is not an object, makes the core operation raise AttributeError
    instead of the typed Error: [get] is called on a value that has none and
    the handler catches ValueError only. *)
Theorem http_error_with_misshaped_body method url payload params st response :
  answer_to (_internal_call method url payload params) st = Some (inr response) ->
  is_error_status (status_code response) = true ->
  error_body_shaped response = false ->
  fst (_internal_call method url payload params st) = inl AttributeError.
Proof.
  intros Hanswer Hstatus Hshape.
  rewrite (internal_call_settles _ _ _ _ _ _ Hanswer).
  unfold settle, error_of_response. rewrite Hstatus.
  unfold error_body_shaped in Hshape.
  destruct (json_body response) as [[]|]; try done.
  by destruct (assoc_get _ _ _).
Qed.

(** X11. A ValueError raised by the session itself (requests raises its
    InvalidURL, MissingSchema, InvalidSchema and InvalidHeader as such) is
    swallowed like an undecodable body: the core operation returns None. *)
Theorem session_value_error_returns_none method url payload params st :
  answer_to (_internal_call method url payload params) st = Some (inl ValueError) ->
  fst (_internal_call method url payload params st) = inr PyNone.
Proof.
  intros Hanswer. by rewrite (internal_call_settles _ _ _ _ _ _ Hanswer).
Qed.

(** X12. An exception the session raises that is no HTTPError, RetryError
    or ValueError leaves the core operation exactly as it was raised. *)
Theorem session_exception_passes_through method url payload params st e :
  answer_to (_internal_call method url payload params) st = Some (inl e) ->
  untranslated e = true ->
  fst (_internal_call method url payload params st) = inl e.
Proof.
  intros Hanswer Hclass.
  rewrite (internal_call_settles _ _ _ _ _ _ Hanswer).
  by destruct e.
Qed.

(** X13. [set_auth] always returns None, sends nothing and stores the
    token it is given; of two calls in a row the second wins: the client
    holds the second token and is in the state the second call alone would
    have left; and storing the token already stored changes nothing. *)
Theorem set_auth_last_wins first second st :
  fst (set_auth first st) = inr PyNone
  /\ issued (snd (set_auth first st)) = issued st
  /\ _auth (self (snd (set_auth first st))) = first
  /\ _auth (self (snd (set_auth second (snd (set_auth first st))))) = second
  /\ set_auth second (snd (set_auth first st)) = set_auth second st
  /\ snd (set_auth (_auth (self st)) st) = st.
Proof.
  unfold_call. repeat split. by destruct st as [[] ?].
Qed.

(** X15. Once the request has been handed to the session, the core
    operation never fails with an HTTPError, a RetryError or a ValueError:
    whatever the session answers, those three are turned into something else
    before the caller sees them. *)
Theorem no_requests_error_escapes method url payload params st answer e :
  answer_to (_internal_call method url payload params) st = Some answer ->
  fst (_internal_call method url payload params st) = inl e ->
  untranslated e = true.
Proof.
  intros Hanswer. rewrite (internal_call_settles _ _ _ _ _ _ Hanswer).
  unfold settle, error_of_response, error_of_retry.
  repeat case_match; intros; by simplify_eq/=.
Qed.

(** X16. [user] returns what the session's answer to its GET decodes to:
    the JSON body of a response without HTTP error status, or None when that
    body is not JSON. *)
Theorem user_returns_body st response :
  answer_to user st = Some (inr response) ->
  is_error_status (status_code response) = false ->
  fst (user st) = inr (match json_body response with
                       | Some v => v
                       | None => PyNone
                       end).
Proof.
  unfold user, _get. intros Hanswer Hstatus.
  rewrite (internal_call_settles _ _ _ _ _ _ Hanswer).
  unfold settle. by rewrite Hstatus.
Qed.

End Client.

(** ** The retry policy of the session *)

(** What [_build_session] configures: both URL prefixes share one adapter,
    whose policy allows 3 retries in total, counts connection failures
    against that total only, never retries a read failure, applies to GET,
    POST, PUT and DELETE, and backs off with factor 0.3. *)
Lemma build_session_policy :
  exists retry,
    adapters _build_session !! "http://" = Some {| max_retries := retry |}
    /\ adapters _build_session !! "https://" = Some {| max_retries := retry |}
    /\ total retry = PyInt 3
    /\ connect retry = PyNone
    /\ read retry = PyBool false
    /\ allowed_methods retry = {[ "GET"; "POST"; "PUT"; "DELETE" ]}
    /\ backoff_factor retry = PyFloat (3 # 10).
Proof.
  eexists. unfold _build_session, mount, requests_Session. cbn.
  split; [by simplify_map_eq|]. split; [by simplify_map_eq|]. done.
Qed.

(** C1 (evaluated at the failing input). The session built at construction
    passes the status codes 429, 500, 502, 503, 504 as the policy's [status]
    argument, which urllib3 reads as a retry count, and passes None as
    [status_forcelist], the set of statuses urllib3 retries on. So a GET
    answered with status 500 is not retried. *)
Theorem status_500_not_retried auth requests_timeout :
  exists adapter,
    adapters (_session (__init__ auth requests_timeout)) !! "https://" = Some adapter
    /\ status (max_retries adapter)
       = PyTuple [PyInt 429; PyInt 500; PyInt 502; PyInt 503; PyInt 504]
    /\ status_forcelist (max_retries adapter) = PyNone
    /\ urllib3.is_retry (max_retries adapter) "GET" 500 false = false.
Proof.
  destruct build_session_policy as (retry & _ & Hhttps & _).
  eexists. split; [exact Hhttps|].
  unfold _build_session, mount in Hhttps. cbn in Hhttps.
  rewrite lookup_insert_eq in Hhttps. injection Hhttps as <-.
  repeat split.
Qed.

(** X14. As urllib3 reads the policy that [_build_session] mounts for both
    URL prefixes, no response is retried on its status alone, whatever the
    method and the status; a response is retried only when it carries a
    Retry-After header, the method is GET, POST, PUT or DELETE (in any
    letter case) and the status is 413, 429 or 503. *)
Theorem policy_retries_on_retry_after_only :
  exists retry,
    adapters _build_session !! "http://" = Some {| max_retries := retry |}
    /\ adapters _build_session !! "https://" = Some {| max_retries := retry |}
    /\ forall meth code,
         urllib3.is_retry retry meth code false = false
         /\ urllib3.is_retry retry meth code true
            = bool_decide (upper meth ∈ ({[ "GET"; "POST"; "PUT"; "DELETE" ]} : gset string))
              && existsb (Z.eqb code) [413; 429; 503].
Proof.
  eexists. unfold _build_session, mount, requests_Session. cbn.
  split; [by simplify_map_eq|]. split; [by simplify_map_eq|].
  intros meth code. unfold urllib3.is_retry, urllib3._is_method_retryable. cbn.
  assert (Hne : bool_decide (({[ "GET"; "POST"; "PUT"; "DELETE" ]} : gset string) = ∅) = false)
    by (vm_compute; reflexivity).
  rewrite Hne. cbn.
  destruct (bool_decide (upper meth ∈ _)); cbn; done.
Qed.

(** Had the same tuple been passed as [status_forcelist], the sibling keyword,
    urllib3 would retry the five statuses for the four methods. *)
Example forcelist_would_retry :
  forallb
    (fun code =>
       urllib3.is_retry
         {| total := PyInt 3; connect := PyNone; read := PyBool false;
            allowed_methods := {[ "GET"; "POST"; "PUT"; "DELETE" ]};
            status := PyNone; backoff_factor := PyFloat 0.3;
            status_forcelist :=
              PyTuple [PyInt 429; PyInt 500; PyInt 502; PyInt 503; PyInt 504] |}
         "GET" code false)
    [429; 500; 502; 503; 504] = true.
Proof. vm_compute. reflexivity. Qed.

(** ** The client run on explicit inputs *)

(** The specification reads "absolute" as "starts with a URL scheme"; the
    client tests for the four characters http. An ftp URL has a scheme and
    is prefixed all the same, not left as given; a relative path that begins
    with http has no scheme and is sent as given, not with the base URL. *)
Lemma url_scheme_counterexample :
  (starts_with_scheme "ftp://example.org/feed" = true
   /\ urls_sent_by
        (_internal_call Sample.repr Sample.dumps
           (Sample.answers (inr Sample.ok_not_json))
           "GET" "ftp://example.org/feed" PyNone ∅)
        (constructed (PyStr "123") default_requests_timeout)
      = ["https://everhome.cloud/ftp://example.org/feed"]
   /\ "https://everhome.cloud/ftp://example.org/feed" <> "ftp://example.org/feed")
  /\ (starts_with_scheme "httpd/status" = false
      /\ urls_sent_by
           (_internal_call Sample.repr Sample.dumps
              (Sample.answers (inr Sample.ok_not_json))
              "GET" "httpd/status" PyNone ∅)
           (constructed (PyStr "123") default_requests_timeout)
         = ["httpd/status"]
      /\ "httpd/status" <> "https://everhome.cloud/" +:+ "httpd/status").
Proof. repeat split; vm_compute; (reflexivity || discriminate). Qed.

(** An empty JSON object is a payload that is present, [json.dumps] turns it
    into the text {}, and yet the request goes out with no body, not with
    that text: the client serializes a payload only when it is truthy. *)
Lemma empty_payload_counterexample :
  (∅ : gmap string pyval) !! "content_type" = None
  /\ PyDict [] <> PyNone
  /\ Sample.dumps (PyDict []) = inr "{}"
  /\ bodies_sent_by
       (_internal_call Sample.repr Sample.dumps
          (Sample.answers (inr Sample.ok_not_json))
          "POST" "devices" (PyDict []) ∅)
       (constructed (PyStr "123") default_requests_timeout)
     = [None]
  /\ None <> Some (PyStr "{}").
Proof. repeat split; try discriminate; vm_compute; reflexivity. Qed.

(** A connection error raised by the session is no HTTPError, RetryError or
    ValueError: the core operation fails with it, not with the typed Error. *)
Lemma connection_error_counterexample :
  exists e,
    fst (_internal_call Sample.repr Sample.dumps
           (Sample.answers (inl (OtherError "requests.exceptions.ConnectionError")))
           "GET" "devices" PyNone ∅ (constructed (PyStr "123") default_requests_timeout))
    = inl e
    /\ forall err, e <> EverHomeException err.
Proof. eexists. split; [vm_compute; reflexivity | discriminate]. Qed.

(** The token 123 at construction, a call, [set_auth] with 456, a call: the
    two requests carry the two tokens in turn. *)
Example two_tokens :
  (fun sr => headers (snd sr) !! "Authorization") <$>
    issued (run Sample.repr Sample.dumps (Sample.answers (inr Sample.ok_not_json))
              [Call_request Op_user; Call_set_auth (PyStr "456"); Call_request Op_test]
              (constructed (PyStr "123") default_requests_timeout))
  = [Some (PyStr "Bearer 123"); Some (PyStr "Bearer 456")].
Proof. vm_compute. reflexivity. Qed.

(** A client constructed without a token sends the text None as the token. *)
Example no_token :
  (fun sr => headers (snd sr) !! "Authorization") <$>
    issued (run Sample.repr Sample.dumps (Sample.answers (inr Sample.ok_not_json))
              [Call_request Op_user]
              (constructed default_auth default_requests_timeout))
  = [Some (PyStr "Bearer None")].
Proof. vm_compute. reflexivity. Qed.

(** An error body that is JSON but not an object has no [get]: the
    [AttributeError] is not a [ValueError] and leaves the core operation. *)
Example error_body_not_an_object :
  fst (_internal_call Sample.repr Sample.dumps (Sample.answers (inr Sample.error_list))
         "GET" "devices" PyNone ∅ (constructed (PyStr "123") default_requests_timeout))
  = inl AttributeError.
Proof. vm_compute. reflexivity. Qed.

Lemma http_error_with_json_body_witness :
  fst (_internal_call Sample.repr Sample.dumps (Sample.answers (inr Sample.not_found))
         "GET" "user/current" PyNone ∅ (constructed (PyStr "123") default_requests_timeout))
  = inl (EverHomeException
           {| http_status := 404;
              error_code := -1;
              message := "https://everhome.cloud/user/current:"
                         +:+ String "010"%char " not found";
              reason := PyStr "no_such_user";
              error_headers := Some [("Content-Type", "application/json")] |}).
Proof.
  apply (http_error_with_json_body Sample.repr Sample.dumps
           (Sample.answers (inr Sample.not_found))
           "GET" "user/current" PyNone ∅ (constructed (PyStr "123") default_requests_timeout)
           Sample.not_found
           [("error", PyDict [("message", PyStr "not found");
                              ("reason", PyStr "no_such_user")])]
           [("message", PyStr "not found"); ("reason", PyStr "no_such_user")]
           (PyStr "not found") (PyStr "no_such_user"));
    vm_compute; reflexivity.
Defined.

Lemma http_error_without_json_body_witness :
  fst (_internal_call Sample.repr Sample.dumps (Sample.answers (inr Sample.internal_error))
         "GET" "devices" PyNone ∅ (constructed (PyStr "123") default_requests_timeout))
  = inl (EverHomeException
           {| http_status := 500;
              error_code := -1;
              message := "https://everhome.cloud/devices:"
                         +:+ String "010"%char " internal error";
              reason := PyNone;
              error_headers := Some [("Content-Type", "text/plain")] |}).
Proof.
  apply (http_error_without_json_body Sample.repr Sample.dumps
           (Sample.answers (inr Sample.internal_error))
           "GET" "devices" PyNone ∅ (constructed (PyStr "123") default_requests_timeout)
           Sample.internal_error);
    vm_compute; reflexivity.
Defined.

Lemma retry_exhaustion_witness :
  fst (_internal_call Sample.repr Sample.dumps
         (Sample.answers (inl (RetryError Sample.too_many_500)))
         "GET" "devices" PyNone ∅ (constructed (PyStr "123") default_requests_timeout))
  = inl (EverHomeException
           {| http_status := 429;
              error_code := -1;
              message := "/devices:" +:+ String "010"%char " Max Retries";
              reason := PyObj "too many 500 error responses";
              error_headers := None |}).
Proof.
  apply (retry_exhaustion Sample.repr Sample.dumps
           (Sample.answers (inl (RetryError Sample.too_many_500)))
           "GET" "devices" PyNone ∅ (constructed (PyStr "123") default_requests_timeout)
           Sample.too_many_500);
    vm_compute; reflexivity.
Defined.

Lemma success_returns_json_or_none_witness :
  fst (_internal_call Sample.repr Sample.dumps (Sample.answers (inr Sample.ok_not_json))
         "GET" "devices" PyNone ∅ (constructed (PyStr "123") default_requests_timeout))
  = inr PyNone.
Proof.
  apply (success_returns_json_or_none Sample.repr Sample.dumps
           (Sample.answers (inr Sample.ok_not_json))
           "GET" "devices" PyNone ∅ (constructed (PyStr "123") default_requests_timeout)
           Sample.ok_not_json);
    vm_compute; reflexivity.
Defined.

Lemma failures_surface_witness :
  exists err,
    fst (_internal_call Sample.repr Sample.dumps
           (Sample.answers (inr Sample.empty_error))
           "GET" "devices" PyNone ∅ (constructed (PyStr "123") default_requests_timeout))
    = inl (EverHomeException err)
    /\ http_status err = 500
    /\ error_code err = -1
    /\ error_headers err = Some [].
Proof.
  assert (Hshape : forall answer response,
    answer_to (Sample.answers (inr Sample.empty_error))
      (_internal_call Sample.repr Sample.dumps
         (Sample.answers (inr Sample.empty_error)) "GET" "devices" PyNone ∅)
      (constructed (PyStr "123") default_requests_timeout) = Some answer ->
    error_response answer = Some response ->
    error_body_shaped response = true).
  { intros answer response Hanswer Hresponse.
    vm_compute in Hanswer. injection Hanswer as <-.
    vm_compute in Hresponse. injection Hresponse as <-.
    reflexivity. }
  apply (proj1 (failures_surface Sample.repr Sample.dumps
                  (Sample.answers (inr Sample.empty_error))
                  "GET" "devices" PyNone ∅
                  (constructed (PyStr "123") default_requests_timeout) Hshape)
           Sample.empty_error);
    vm_compute; reflexivity.
Defined.

Lemma test_returns_42_witness :
  fst (test Sample.repr Sample.dumps (Sample.answers (inr Sample.ok_not_json))
         (constructed (PyStr "123") default_requests_timeout))
  = inr (PyInt 42).
Proof.
  apply (test_returns_42 Sample.repr Sample.dumps
           (Sample.answers (inr Sample.ok_not_json))
           (constructed (PyStr "123") default_requests_timeout)
           Sample.ok_not_json);
    vm_compute; reflexivity.
Defined.

Lemma http_error_with_partial_body_witness :
  fst (_internal_call Sample.repr Sample.dumps
         (Sample.answers (inr Sample.error_empty_object))
         "GET" "devices" PyNone ∅ (constructed (PyStr "123") default_requests_timeout))
  = inl (EverHomeException
           {| http_status := 500;
              error_code := -1;
              message := "https://everhome.cloud/devices:"
                         +:+ String "010"%char " None";
              reason := PyNone;
              error_headers := Some [("Content-Type", "application/json")] |}).
Proof.
  apply (http_error_with_partial_body Sample.repr Sample.dumps
           (Sample.answers (inr Sample.error_empty_object))
           "GET" "devices" PyNone ∅ (constructed (PyStr "123") default_requests_timeout)
           Sample.error_empty_object [] []);
    vm_compute; reflexivity.
Defined.

Lemma http_error_with_misshaped_body_witness :
  fst (_internal_call Sample.repr Sample.dumps (Sample.answers (inr Sample.error_list))
         "GET" "devices" PyNone ∅ (constructed (PyStr "123") default_requests_timeout))
  = inl AttributeError.
Proof.
  apply (http_error_with_misshaped_body Sample.repr Sample.dumps
           (Sample.answers (inr Sample.error_list))
           "GET" "devices" PyNone ∅ (constructed (PyStr "123") default_requests_timeout)
           Sample.error_list);
    vm_compute; reflexivity.
Defined.

Lemma session_value_error_returns_none_witness :
  fst (_internal_call Sample.repr Sample.dumps (Sample.answers (inl ValueError))
         "GET" "httpd/status" PyNone ∅
         (constructed (PyStr "123") default_requests_timeout))
  = inr PyNone.
Proof.
  apply (session_value_error_returns_none Sample.repr Sample.dumps
           (Sample.answers (inl ValueError))
           "GET" "httpd/status" PyNone ∅
           (constructed (PyStr "123") default_requests_timeout));
    vm_compute; reflexivity.
Defined.

Lemma session_exception_passes_through_witness :
  fst (_internal_call Sample.repr Sample.dumps
         (Sample.answers (inl (OtherError "requests.exceptions.ReadTimeout")))
         "GET" "devices" PyNone ∅ (constructed (PyStr "123") default_requests_timeout))
  = inl (OtherError "requests.exceptions.ReadTimeout").
Proof.
  apply (session_exception_passes_through Sample.repr Sample.dumps
           (Sample.answers (inl (OtherError "requests.exceptions.ReadTimeout")))
           "GET" "devices" PyNone ∅ (constructed (PyStr "123") default_requests_timeout));
    vm_compute; reflexivity.
Defined.

Lemma no_requests_error_escapes_witness :
  untranslated (error_of_response Sample.repr Sample.internal_error) = true.
Proof.
  apply (no_requests_error_escapes Sample.repr Sample.dumps
           (Sample.answers (inr Sample.internal_error))
           "GET" "devices" PyNone ∅ (constructed (PyStr "123") default_requests_timeout)
           (inr Sample.internal_error));
    vm_compute; reflexivity.
Defined.

Lemma user_returns_body_witness :
  fst (user Sample.repr Sample.dumps (Sample.answers (inr Sample.ok_devices))
         (constructed (PyStr "123") default_requests_timeout))
  = inr (PyList [PyInt 7; PyInt 9]).
Proof.
  apply (user_returns_body Sample.repr Sample.dumps
           (Sample.answers (inr Sample.ok_devices))
           (constructed (PyStr "123") default_requests_timeout)
           Sample.ok_devices);
    vm_compute; reflexivity.
Defined.

Lemma request_ignores_history_witness :
  sent_by (request Sample.repr Sample.dumps (Sample.answers (inr Sample.ok_devices))
             Op_user)
    (run Sample.repr Sample.dumps (Sample.answers (inr Sample.ok_devices))
       (Call_request <$> [Op_test; Op_post "devices" None (PyInt 7) ∅])
       (constructed (PyStr "123") default_requests_timeout))
  = sent_by (request Sample.repr Sample.dumps (Sample.answers (inr Sample.ok_devices))
               Op_user)
      (constructed (PyStr "123") default_requests_timeout).
Proof.
  apply (request_ignores_history Sample.repr Sample.dumps
           (Sample.answers (inr Sample.ok_devices))
           Op_user [Op_test; Op_post "devices" None (PyInt 7) ∅]
           (constructed (PyStr "123") default_requests_timeout)).
  reflexivity.
Defined.
